(** * Home page controller of the real-estate app (src/pages/Home.tsx)

    A shallow embedding of the [Home] component: the query that [fetchPlots]
    builds from the search filters, the way [fetchPlots] drives the
    component state through [try]/[catch]/[finally], and the view toggle. *)

From Stdlib Require Import List String Ascii Bool ZArith Floats.
Import ListNotations.

Local Open Scope string_scope.

(** ** JavaScript numbers

    A TypeScript [number] is an IEEE 754 binary64 value, which is what the
    primitive type [float] is: it has NaN, the two infinities and the two
    zeros, and a comparison answers [false] as soon as one side is NaN. *)

Module JsNumber.

Definition number : Set := float.

(** [a < b] and [a > b] of JavaScript on two numbers. *)
Definition lt (a b : number) : bool := PrimFloat.ltb a b.
Definition gt (a b : number) : bool := PrimFloat.ltb b a.

(** [a == b] on two numbers: [0] and [-0] are equal, NaN equals nothing. *)
Definition equal (a b : number) : bool := PrimFloat.eqb a b.

Arguments lt (a b)%_float.
Arguments gt (a b)%_float.
Arguments equal (a b)%_float.

End JsNumber.

Export JsNumber.

(** ** The remote store's query builder *)

Module Supabase.

(** Modelled from the spec: the query-builder contract of the remote store
    (equality, greater-or-equal and less-or-equal predicates, an [or] of
    pattern matches given in the store's filter syntax, an ordering clause
    and a projection with nested relations).  The client module
    [lib/supabase] is not among the sources; a builder is the record of the
    calls made on it, in call order. *)
Inductive filter : Type :=
| FEq (column value : string)
| FGte (column : string) (value : number)
| FLte (column : string) (value : number)
| FOr (filters : string).

Arguments FGte column%_string value%_float.
Arguments FLte column%_string value%_float.

Record order_clause : Type := { o_column : string; o_ascending : bool }.

Record query : Type := {
  q_table : string;
  q_columns : string;
  q_filters : list filter;
  q_order : list order_clause
}.

Definition from (table : string) : query :=
  {| q_table := table; q_columns := ""; q_filters := []; q_order := [] |}.

Definition select (q : query) (columns : string) : query :=
  {| q_table := q_table q; q_columns := columns;
     q_filters := q_filters q; q_order := q_order q |}.

Definition add_filter (q : query) (p : filter) : query :=
  {| q_table := q_table q; q_columns := q_columns q;
     q_filters := (q_filters q ++ [p])%list; q_order := q_order q |}.

Definition eq (q : query) (column value : string) : query :=
  add_filter q (FEq column value).

Definition gte (q : query) (column : string) (value : number) : query :=
  add_filter q (FGte column value).

Definition lte (q : query) (column : string) (value : number) : query :=
  add_filter q (FLte column value).

Definition or (q : query) (filters : string) : query :=
  add_filter q (FOr filters).

Definition order (q : query) (column : string) (ascending : bool) : query :=
  {| q_table := q_table q; q_columns := q_columns q;
     q_filters := q_filters q;
     q_order := (q_order q
                 ++ [{| o_column := column; o_ascending := ascending |}])%list |}.

(** The store's filter syntax, as far as the page uses it: a condition is
    [column.operator.value], an [or] takes its conditions separated by
    commas, and [ilike] is the case-insensitive pattern match in which [%]
    stands for any run of characters. *)
Definition condition (column operator value : string) : string :=
  column ++ "." ++ operator ++ "." ++ value.

Definition contains_pattern (s : string) : string := "%" ++ s ++ "%".

Definition ilike_contains (column s : string) : string :=
  condition column "ilike" (contains_pattern s).

Definition any_of (conditions : list string) : string :=
  String.concat "," conditions.

End Supabase.

(** ** Search filters *)

(** Modelled from the spec: the filter criteria handed over by the filter
    panel, fully populated (a text, four numeric bounds, a council identifier
    and a usage type, the last two empty when not chosen).  The declaration
    lives in [components/Plots/SearchFilters], which is not among the
    sources. *)
Record SearchFilters : Type := {
  search : string;
  minPrice : number;
  maxPrice : number;
  minArea : number;
  maxArea : number;
  councilId : string;
  usageType : string
}.

Arguments Build_SearchFilters search%_string
  (minPrice maxPrice minArea maxArea)%_float (councilId usageType)%_string.

Definition with_search (v : string) (f : SearchFilters) : SearchFilters :=
  {| search := v; minPrice := minPrice f; maxPrice := maxPrice f;
     minArea := minArea f; maxArea := maxArea f;
     councilId := councilId f; usageType := usageType f |}.

Definition with_maxPrice (v : number) (f : SearchFilters) : SearchFilters :=
  {| search := search f; minPrice := minPrice f; maxPrice := v;
     minArea := minArea f; maxArea := maxArea f;
     councilId := councilId f; usageType := usageType f |}.

Arguments with_maxPrice v%_float f.

(** The filter panel's untouched state: every field at its sentinel. *)
Definition defaults : SearchFilters :=
  {| search := ""; minPrice := 0; maxPrice := 10000000;
     minArea := 0; maxArea := 10000; councilId := ""; usageType := "" |}.

(** Every numeric bound on the unconstrained side of its sentinel. *)
Definition out_of_range : SearchFilters :=
  {| search := ""; minPrice := -1; maxPrice := 10000001;
     minArea := -0.5; maxArea := infinity; councilId := ""; usageType := "" |}.

(** Truthiness of a JavaScript string: every string but the empty one. *)
Definition truthy_string (s : string) : bool :=
  match s with
  | EmptyString => false
  | String _ _ => true
  end.

Definition nl : string := String (ascii_of_nat 10) EmptyString.

(** The projection passed to [select] (lines 25-39), line by line. *)
Definition plot_columns : string :=
  String.concat nl
    [ "";
      "          *,";
      "          council:councils(";
      "            id,";
      "            name,";
      "            district:districts(";
      "              id,";
      "              name,";
      "              region:regions(";
      "                id,";
      "                name";
      "              )";
      "            )";
      "          )";
      "        " ].

(** The query of [fetchPlots] as it stands after the filter block
    (lines 23-65). *)
Definition fetchPlots_query (filters : option SearchFilters) : Supabase.query :=
  let query :=
    Supabase.eq (Supabase.select (Supabase.from "plots") plot_columns)
                "status" "available" in
  match filters with
  | None => query
  | Some filters =>
    let query :=
      if truthy_string (search filters)
      then Supabase.or query
             ("title.ilike.%" ++ search filters ++
              "%,description.ilike.%" ++ search filters ++ "%")
      else query in
    let query :=
      if gt (minPrice filters) 0
      then Supabase.gte query "price" (minPrice filters) else query in
    let query :=
      if lt (maxPrice filters) 10000000
      then Supabase.lte query "price" (maxPrice filters) else query in
    let query :=
      if gt (minArea filters) 0
      then Supabase.gte query "area_sqm" (minArea filters) else query in
    let query :=
      if lt (maxArea filters) 10000
      then Supabase.lte query "area_sqm" (maxArea filters) else query in
    let query :=
      if truthy_string (councilId filters)
      then Supabase.eq query "council_id" (councilId filters) else query in
    let query :=
      if truthy_string (usageType filters)
      then Supabase.eq query "usage_type" (usageType filters) else query in
    query
  end.

(** The request sent to the store (line 67): the query, newest plot first. *)
Definition fetchPlots_request (filters : option SearchFilters) : Supabase.query :=
  Supabase.order (fetchPlots_query filters) "created_at" false.

(** The text-search condition in the words of the spec: the title or the
    description contains the text, case-insensitively. *)
Definition text_search (s : string) : string :=
  Supabase.any_of [Supabase.ilike_contains "title" s;
                   Supabase.ilike_contains "description" s].

(** [when b p]: the predicate [p] if the guard [b] held, nothing otherwise. *)
Definition when (b : bool) (p : Supabase.filter) : list Supabase.filter :=
  if b then [p] else [].

(** ** The component: state, effects, and the control flow of a call *)

Inductive ViewMode : Set := grid | map.

Local Open Scope list_scope.

Section Controller.

(** [Plot] is declared in [types], outside the sources at hand, and the page
    never looks inside a plot; [ErrorInfo] stands for whatever the store
    reports or an exception carries. *)
Variable Plot : Type.
Variable ErrorInfo : Type.

(** The four [useState] cells (lines 11-14). *)
Record State : Type := {
  plots : list Plot;
  loading : bool;
  viewMode : ViewMode;
  selectedPlot : option Plot
}.

Definition initialState : State :=
  {| plots := []; loading := true; viewMode := grid; selectedPlot := None |}.

Definition with_plots (v : list Plot) (s : State) : State :=
  {| plots := v; loading := loading s;
     viewMode := viewMode s; selectedPlot := selectedPlot s |}.

Definition with_loading (v : bool) (s : State) : State :=
  {| plots := plots s; loading := v;
     viewMode := viewMode s; selectedPlot := selectedPlot s |}.

Definition with_viewMode (v : ViewMode) (s : State) : State :=
  {| plots := plots s; loading := loading s;
     viewMode := v; selectedPlot := selectedPlot s |}.

Definition with_selectedPlot (v : option Plot) (s : State) : State :=
  {| plots := plots s; loading := loading s;
     viewMode := viewMode s; selectedPlot := v |}.

(** What a run does that can be observed from outside, in order: calls of
    the state setters, requests sent to the store, console output. *)
Inductive Event : Type :=
| SetPlots (value : list Plot)
| SetLoading (value : bool)
| SetViewMode (value : ViewMode)
| SetSelectedPlot (value : option Plot)
| Request (q : Supabase.query)
| ConsoleError (message : string) (payload : ErrorInfo)
| ConsoleLog (message : string) (payload : Plot).

(** How a statement ends: normally with a value, by [return], or by a
    thrown exception. *)
Inductive Completion (A : Type) : Type :=
| Normal (a : A)
| Return
| Throw (e : ErrorInfo).

Arguments Normal {A} a.
Arguments Return {A}.
Arguments Throw {A} e.

(** A statement transforms the state, emits events and completes. *)
Definition M (A : Type) : Type := State -> Completion A * State * list Event.

Definition ret {A} (a : A) : M A := fun s => (Normal a, s, []).

Definition bind {A B} (m : M A) (k : A -> M B) : M B :=
  fun s =>
    match m s with
    | (Normal a, s1, t1) =>
      let '(c, s2, t2) := k a s1 in (c, s2, t1 ++ t2)
    | (Return, s1, t1) => (Return, s1, t1)
    | (Throw e, s1, t1) => (Throw e, s1, t1)
    end.

Definition return_ {A} : M A := fun s => (Return, s, []).

Definition throw {A} (e : ErrorInfo) : M A := fun s => (Throw e, s, []).

(** [try body catch (e) handler(e) finally fin]: the handler runs on a
    throw of the body, [fin] runs in every case, and the statement completes
    as the body (or the handler) did unless [fin] itself ends abruptly. *)
Definition try_catch_finally
    (body : M unit) (handler : ErrorInfo -> M unit) (fin : M unit) : M unit :=
  fun s =>
    let '(c1, s1, t1) := body s in
    let '(c2, s2, t2) :=
      match c1 with
      | Throw e => let '(c, s', t) := handler e s1 in (c, s', t1 ++ t)
      | _ => (c1, s1, t1)
      end in
    let '(c3, s3, t3) := fin s2 in
    (match c3 with Normal _ => c2 | _ => c3 end, s3, t2 ++ t3).

(** The state setters and the console. *)
Definition setPlots (v : list Plot) : M unit :=
  fun s => (Normal tt, with_plots v s, [SetPlots v]).

Definition setLoading (v : bool) : M unit :=
  fun s => (Normal tt, with_loading v s, [SetLoading v]).

Definition setViewMode (v : ViewMode) : M unit :=
  fun s => (Normal tt, with_viewMode v s, [SetViewMode v]).

Definition setSelectedPlot (v : option Plot) : M unit :=
  fun s => (Normal tt, with_selectedPlot v s, [SetSelectedPlot v]).

Definition console_error (message : string) (payload : ErrorInfo) : M unit :=
  fun s => (Normal tt, s, [ConsoleError message payload]).

Definition console_log (message : string) (payload : Plot) : M unit :=
  fun s => (Normal tt, s, [ConsoleLog message payload]).

(** What the store answers to a request: the promise resolves to the pair
    [{ data, error }], each possibly [null], or it rejects. *)
Inductive Response : Type :=
| Resolves (data : option (list Plot)) (error : option ErrorInfo)
| Rejects (e : ErrorInfo).

Definition Store : Type := Supabase.query -> Response.

(** [await q]: the request goes out and the call resumes with the answer;
    nothing else runs in between. *)
Definition await (store : Store) (q : Supabase.query)
  : M (option (list Plot) * option ErrorInfo) :=
  fun s =>
    match store q with
    | Resolves data error => (Normal (data, error), s, [Request q])
    | Rejects e => (Throw e, s, [Request q])
    end.

(** [data || []]. *)
Definition or_empty (data : option (list Plot)) : list Plot :=
  match data with
  | Some l => l
  | None => []
  end.

Notation "x <- m ;; k" := (bind m (fun x => k))
  (at level 61, m at next level, right associativity).
Notation "m ;;; k" := (bind m (fun _ => k))
  (at level 61, right associativity).

(** [fetchPlots] (lines 20-80). *)
Definition fetchPlots (store : Store) (filters : option SearchFilters) : M unit :=
  try_catch_finally
    (setLoading true ;;;
     let query := fetchPlots_query filters in
     r <- await store (Supabase.order query "created_at" false) ;;
     let '(data, error) := r in
     match error with
     | Some error =>
       console_error "Error fetching plots:" error ;;;
       return_
     | None =>
       setPlots (or_empty data)
     end)
    (fun error => console_error "Error fetching plots:" error)
    (setLoading false).

(** How the promise of an async call settles (for a plain handler:
    whether it returned or threw). *)
Inductive Settled : Type :=
| Fulfilled
| Rejected (e : ErrorInfo).

Record Run : Type := {
  settled : Settled;
  final : State;
  events : list Event
}.

Definition call (m : M unit) (s : State) : Run :=
  let '(c, s', t) := m s in
  {| settled := match c with Throw e => Rejected e | _ => Fulfilled end;
     final := s';
     events := t |}.

(** Two runs in a row: the second starts in the state the first left. *)
Definition and_then (r : Run) (m : M unit) : Run :=
  let r' := call m (final r) in
  {| settled := settled r'; final := final r';
     events := events r ++ events r' |}.

(** The mount effect (lines 16-18) and the handlers (lines 82-94). *)
Definition mount (store : Store) : Run :=
  call (fetchPlots store None) initialState.

Definition handleFiltersChange (store : Store) (filters : SearchFilters) : M unit :=
  fetchPlots store (Some filters).

Definition handleViewDetails (plot : Plot) : M unit :=
  setSelectedPlot (Some plot) ;;;
  console_log "View details for plot:" plot.

Definition handlePlotClick (plot : Plot) : M unit :=
  setSelectedPlot (Some plot).

(** The two toggle buttons pressed one after the other (lines 125, 135):
    [setViewMode('map')], then [setViewMode('grid')]. *)
Definition map_then_grid (s : State) : Run :=
  and_then (call (setViewMode map) s) (setViewMode grid).

(** The content branch of the render (lines 148-159). *)
Inductive Content : Type :=
| PlotGrid (plots : list Plot) (loading : bool)
| MapView (plots : list Plot).

Definition render_content (s : State) : Content :=
  match viewMode s with
  | grid => PlotGrid (plots s) (loading s)
  | map => MapView (plots s)
  end.

(** The error a response carries, whichever way it comes: reported in the
    resolved pair, or thrown. *)
Definition failure (r : Response) : option ErrorInfo :=
  match r with
  | Resolves _ (Some e) => Some e
  | Resolves _ None => None
  | Rejects e => Some e
  end.

(** Each request of a trace with the value of [loading] in force when it
    was sent. *)
Fixpoint requests_while (loading0 : bool) (t : list Event)
  : list (Supabase.query * bool) :=
  match t with
  | [] => []
  | SetLoading v :: t' => requests_while v t'
  | Request q :: t' => (q, loading0) :: requests_while loading0 t'
  | _ :: t' => requests_while loading0 t'
  end.

(** The events the rendered page reacts to, with the handler wired to each
    (lines 112, 125, 135, 152, 157).  A change of filters carries the store
    as it answers that call. *)
Inductive UiEvent : Type :=
| FiltersChange (answer : Store) (filters : SearchFilters)
| GridButton
| MapButton
| ViewDetails (plot : Plot)
| PlotClick (plot : Plot).

Definition handler (ev : UiEvent) : M unit :=
  match ev with
  | FiltersChange answer filters => handleFiltersChange answer filters
  | GridButton => setViewMode grid
  | MapButton => setViewMode map
  | ViewDetails plot => handleViewDetails plot
  | PlotClick plot => handlePlotClick plot
  end.

(** The handlers of a list of events run one after the other, each to its
    end.  The page offers [ViewDetails] on the grid only and [PlotClick] on
    the map only; every list is allowed here, which is more. *)
Fixpoint run_events (r : Run) (evs : list UiEvent) : Run :=
  match evs with
  | [] => r
  | ev :: evs' => run_events (and_then r (handler ev)) evs'
  end.

(** A session: the mount effect, then the events. *)
Definition session (store : Store) (evs : list UiEvent) : Run :=
  run_events (mount store) evs.

(** The filters of the changes of a session, in order. *)
Fixpoint changed_filters (evs : list UiEvent) : list SearchFilters :=
  match evs with
  | [] => []
  | FiltersChange _ filters :: evs' => filters :: changed_filters evs'
  | _ :: evs' => changed_filters evs'
  end.

(** Whether an event is a change of filters whose request succeeds. *)
Definition replaces_plots (ev : UiEvent) : bool :=
  match ev with
  | FiltersChange answer filters =>
    match failure (answer (fetchPlots_request (Some filters))) with
    | Some _ => false
    | None => true
    end
  | _ => false
  end.

Definition is_button (ev : UiEvent) : bool :=
  match ev with
  | GridButton | MapButton => true
  | _ => false
  end.

Definition is_selection (ev : UiEvent) : bool :=
  match ev with
  | ViewDetails _ | PlotClick _ => true
  | _ => false
  end.

(** The value of [loading] at the end of a trace that began with
    [loading0]. *)
Fixpoint loading_after (loading0 : bool) (t : list Event) : bool :=
  match t with
  | [] => loading0
  | SetLoading v :: t' => loading_after v t'
  | _ :: t' => loading_after loading0 t'
  end.

(** [fetchPlots] in the two parts its [await] cuts it into.  Up to the
    [await] (lines 21-67) the flag goes on and the request goes out; from
    the [await] on (lines 67-79), once the store has answered, the rest of
    the [try] runs under its [catch] and [finally].  Between the two parts
    other handlers run, other calls of [fetchPlots] among them:
    [handleFiltersChange] does not wait for the call it starts. *)
Definition send (q : Supabase.query) : M unit :=
  fun s => (Normal tt, s, [Request q]).

Definition fetchPlots_until_await (filters : option SearchFilters) : M unit :=
  setLoading true ;;;
  let query := fetchPlots_query filters in
  send (Supabase.order query "created_at" false).

Definition resume (answer : Response)
  : M (option (list Plot) * option ErrorInfo) :=
  fun s =>
    match answer with
    | Resolves data error => (Normal (data, error), s, [])
    | Rejects e => (Throw e, s, [])
    end.

Definition fetchPlots_from_await (answer : Response) : M unit :=
  try_catch_finally
    (r <- resume answer ;;
     let '(data, error) := r in
     match error with
     | Some error =>
       console_error "Error fetching plots:" error ;;;
       return_
     | None =>
       setPlots (or_empty data)
     end)
    (fun error => console_error "Error fetching plots:" error)
    (setLoading false).

(** The steps of a run in which calls of [fetchPlots] may overlap: a call
    starts and reaches its [await]; the call made with [filters] resumes
    with what [store] answers to its request; any other event is handled. *)
Inductive Step : Type :=
| Begin (filters : option SearchFilters)
| Answer (store : Store) (filters : option SearchFilters)
| Other (ev : UiEvent).

Definition step_handler (st : Step) : M unit :=
  match st with
  | Begin filters => fetchPlots_until_await filters
  | Answer store filters =>
    fetchPlots_from_await (store (fetchPlots_request filters))
  | Other ev => handler ev
  end.

Fixpoint run_steps (r : Run) (steps : list Step) : Run :=
  match steps with
  | [] => r
  | st :: steps' => run_steps (and_then r (step_handler st)) steps'
  end.

(** The page before its mount effect has run. *)
Definition fresh_page : Run :=
  {| settled := Fulfilled; final := initialState; events := [] |}.

(** Whether a step stores rows: an answer that is a success, or an event
    that does. *)
Definition stores_rows (st : Step) : bool :=
  match st with
  | Begin _ => false
  | Answer store filters =>
    match failure (store (fetchPlots_request filters)) with
    | Some _ => false
    | None => true
    end
  | Other ev => replaces_plots ev
  end.

End Controller.

Arguments plots {Plot} s.
Arguments loading {Plot} s.
Arguments viewMode {Plot} s.
Arguments selectedPlot {Plot} s.
Arguments initialState {Plot}.
Arguments with_plots {Plot} v s.
Arguments with_loading {Plot} v s.
Arguments with_viewMode {Plot} v s.
Arguments with_selectedPlot {Plot} v s.
Arguments SetPlots {Plot ErrorInfo} value.
Arguments SetLoading {Plot ErrorInfo} value.
Arguments SetViewMode {Plot ErrorInfo} value.
Arguments SetSelectedPlot {Plot ErrorInfo} value.
Arguments Request {Plot ErrorInfo} q.
Arguments ConsoleError {Plot ErrorInfo} message payload.
Arguments ConsoleLog {Plot ErrorInfo} message payload.
Arguments Normal {ErrorInfo A} a.
Arguments Return {ErrorInfo A}.
Arguments Throw {ErrorInfo A} e.
Arguments Resolves {Plot ErrorInfo} data error.
Arguments Rejects {Plot ErrorInfo} e.
Arguments or_empty {Plot} data.
Arguments setPlots {Plot ErrorInfo} v.
Arguments setLoading {Plot ErrorInfo} v.
Arguments setViewMode {Plot ErrorInfo} v.
Arguments setSelectedPlot {Plot ErrorInfo} v.
Arguments fetchPlots {Plot ErrorInfo} store filters.
Arguments Fulfilled {ErrorInfo}.
Arguments Rejected {ErrorInfo} e.
Arguments settled {Plot ErrorInfo} r.
Arguments final {Plot ErrorInfo} r.
Arguments events {Plot ErrorInfo} r.
Arguments call {Plot ErrorInfo} m s.
Arguments and_then {Plot ErrorInfo} r m.
Arguments mount {Plot ErrorInfo} store.
Arguments handleFiltersChange {Plot ErrorInfo} store filters.
Arguments handleViewDetails {Plot ErrorInfo} plot.
Arguments handlePlotClick {Plot ErrorInfo} plot.
Arguments map_then_grid {Plot ErrorInfo} s.
Arguments PlotGrid {Plot} plots loading.
Arguments MapView {Plot} plots.
Arguments render_content {Plot} s.
Arguments failure {Plot ErrorInfo} r.
Arguments requests_while {Plot ErrorInfo} loading0 t.
Arguments FiltersChange {Plot ErrorInfo} answer filters.
Arguments GridButton {Plot ErrorInfo}.
Arguments MapButton {Plot ErrorInfo}.
Arguments ViewDetails {Plot ErrorInfo} plot.
Arguments PlotClick {Plot ErrorInfo} plot.
Arguments handler {Plot ErrorInfo} ev.
Arguments run_events {Plot ErrorInfo} r evs.
Arguments session {Plot ErrorInfo} store evs.
Arguments changed_filters {Plot ErrorInfo} evs.
Arguments replaces_plots {Plot ErrorInfo} ev.
Arguments is_button {Plot ErrorInfo} ev.
Arguments is_selection {Plot ErrorInfo} ev.
Arguments loading_after {Plot ErrorInfo} loading0 t.
Arguments fetchPlots_until_await {Plot ErrorInfo} filters.
Arguments fetchPlots_from_await {Plot ErrorInfo} answer.
Arguments Begin {Plot ErrorInfo} filters.
Arguments Answer {Plot ErrorInfo} store filters.
Arguments Other {Plot ErrorInfo} ev.
Arguments step_handler {Plot ErrorInfo} st.
Arguments run_steps {Plot ErrorInfo} r steps.
Arguments fresh_page {Plot ErrorInfo}.
Arguments stores_rows {Plot ErrorInfo} st.

(** ** Sample data: plots numbered, errors as messages *)

Definition browsing : State nat :=
  {| plots := [7; 8]; loading := false; viewMode := grid;
     selectedPlot := Some 7 |}.

Definition on_the_map : State nat :=
  {| plots := [7; 8]; loading := false; viewMode := map;
     selectedPlot := None |}.

Definition failing_store : Store nat string :=
  fun _ => Resolves None (Some "upstream timeout").

Definition empty_store : Store nat string :=
  fun _ => Resolves (Some []) None.

Definition stocked_store : Store nat string :=
  fun _ => Resolves (Some [3; 2; 1]) None.

(** ** Reading an [or] expression *)








Section Pattern.

(** Which letters the store takes as the same up to case; it depends on the
    store's locale and is left open. *)
Variable same_letter : ascii -> ascii -> bool.




End Pattern.



(** ** The toggle buttons *)

(** The class of the grid button (lines 126-130) and of the map button
    (lines 136-140). *)
Definition grid_button_className (viewMode : ViewMode) : string :=
  ("p-2 rounded-md transition-colors " ++
   match viewMode with
   | grid => "bg-blue-600 text-white"
   | map => "bg-gray-200 text-gray-700 hover:bg-gray-300"
   end)%string.

Definition map_button_className (viewMode : ViewMode) : string :=
  ("p-2 rounded-md transition-colors " ++
   match viewMode with
   | map => "bg-blue-600 text-white"
   | grid => "bg-gray-200 text-gray-700 hover:bg-gray-300"
   end)%string.

(** The class of a button that is shown as pressed. *)
Definition pressed_className : string :=
  "p-2 rounded-md transition-colors bg-blue-600 text-white".

(** [x !== x], true of NaN alone. *)
Definition is_NaN (a : number) : bool := negb (equal a a).

Definition with_minPrice (v : number) (f : SearchFilters) : SearchFilters :=
  {| search := search f; minPrice := v; maxPrice := maxPrice f;
     minArea := minArea f; maxArea := maxArea f;
     councilId := councilId f; usageType := usageType f |}.

Arguments with_minPrice v%_float f.

(** Filters whose four numeric bounds are NaN. *)
Definition unparsed_bounds : SearchFilters :=
  {| search := ""; minPrice := nan; maxPrice := nan;
     minArea := nan; maxArea := nan; councilId := "c-12"; usageType := "" |}.

(** A session on sample data: a successful change of filters, a look at the
    map, a click on a plot, a change of filters that fails. *)
Definition sample_session : list (UiEvent nat string) :=
  [ FiltersChange stocked_store defaults; MapButton; PlotClick 2;
    FiltersChange failing_store (with_search "plot" defaults) ].

(** A store whose rows depend on the request: plot 1 for a text search,
    plot 2 otherwise. *)
Definition rows_by_request : Store nat string :=
  fun q =>
    if existsb (fun p => match p with Supabase.FOr _ => true | _ => false end)
               (Supabase.q_filters q)
    then Resolves (Some [1]) None
    else Resolves (Some [2]) None.

(** Two changes of filters that overlap: the request of the first one, a
    text search, is answered after that of the second one. *)
Definition overtaken : list (Step nat string) :=
  [ Begin None; Answer rows_by_request None;
    Begin (Some (with_search "plot" defaults)); Begin (Some defaults);
    Answer rows_by_request (Some defaults);
    Answer rows_by_request (Some (with_search "plot" defaults)) ].

(** * Properties *)

(** ** Comparisons of numbers *)

Module JsNumberFacts.

Lemma SFcompare_antisym (x y : spec_float) :
  SFcompare y x = option_map CompOpp (SFcompare x y).
Proof.
  destruct x as [sx|sx| |sx mx ex], y as [sy|sy| |sy my ey]; simpl;
    try reflexivity;
    try (destruct sx; reflexivity);
    try (destruct sy; reflexivity);
    try (destruct sx, sy; reflexivity).
  destruct sx, sy; simpl; try reflexivity;
    rewrite (Z.compare_antisym ex ey);
    destruct (ex ?= ey)%Z; simpl; try reflexivity;
    change (Pos.compare_cont Eq my mx) with (Pos.compare my mx);
    change (Pos.compare_cont Eq mx my) with (Pos.compare mx my);
    rewrite (Pos.compare_antisym mx my);
    destruct (mx ?= my)%positive; reflexivity.
Qed.

(** [<] is asymmetric on every pair of numbers, NaN included. *)
Lemma lt_asym (a b : number) : lt a b = true -> lt b a = false.
Proof.
  unfold lt. rewrite !ltb_spec. unfold SFltb.
  rewrite (SFcompare_antisym (Prim2SF a) (Prim2SF b)).
  destruct (SFcompare (Prim2SF a) (Prim2SF b)) as [[ | | ]|];
    simpl; congruence.
Qed.

Lemma lt_gt_false (a b : number) : lt a b = true -> gt a b = false.
Proof. apply lt_asym. Qed.

Lemma gt_lt_false (a b : number) : gt a b = true -> lt a b = false.
Proof. unfold gt. apply lt_asym. Qed.

(** Numbers that are [==] are on neither side of each other. *)
Lemma equal_lt_false (a b : number) : equal a b = true -> lt a b = false.
Proof.
  unfold equal, lt. rewrite eqb_spec, ltb_spec. unfold SFeqb, SFltb.
  destruct (SFcompare (Prim2SF a) (Prim2SF b)) as [[ | | ]|]; congruence.
Qed.

Lemma equal_gt_false (a b : number) : equal a b = true -> gt a b = false.
Proof.
  unfold equal, gt. rewrite eqb_spec, ltb_spec. unfold SFeqb, SFltb.
  rewrite (SFcompare_antisym (Prim2SF a) (Prim2SF b)).
  destruct (SFcompare (Prim2SF a) (Prim2SF b)) as [[ | | ]|];
    simpl; congruence.
Qed.

End JsNumberFacts.

Import JsNumberFacts.

(** ** The query *)

Import Supabase.

Lemma in_when (b : bool) (p x : filter) :
  In x (when b p) <-> b = true /\ x = p.
Proof.
  destruct b; simpl; split; intros H.
  - destruct H as [H|[]]. auto.
  - left. symmetry. apply H.
  - destruct H.
  - destruct H; discriminate.
Qed.

Lemma string_app_assoc (a b c : string) :
  ((a ++ b) ++ c)%string = (a ++ (b ++ c))%string.
Proof. induction a as [|x a IH]; simpl; [reflexivity | now rewrite IH]. Qed.

(** The template literal of line 45 is the store's rendering of
    [text_search]. *)
Lemma or_template (s : string) :
  ("title.ilike.%" ++ s ++ "%,description.ilike.%" ++ s ++ "%")%string
  = text_search s.
Proof.
  unfold text_search, any_of, ilike_contains, condition, contains_pattern.
  simpl. rewrite string_app_assoc. reflexivity.
Qed.

(** The predicates of the query, guard by guard, in the order of the
    filter block. *)
Lemma fetchPlots_query_filters (f : SearchFilters) :
  q_filters (fetchPlots_query (Some f)) =
    [FEq "status" "available"]
    ++ when (truthy_string (search f)) (FOr (text_search (search f)))
    ++ when (gt (minPrice f) 0) (FGte "price" (minPrice f))
    ++ when (lt (maxPrice f) 10000000) (FLte "price" (maxPrice f))
    ++ when (gt (minArea f) 0) (FGte "area_sqm" (minArea f))
    ++ when (lt (maxArea f) 10000) (FLte "area_sqm" (maxArea f))
    ++ when (truthy_string (councilId f)) (FEq "council_id" (councilId f))
    ++ when (truthy_string (usageType f)) (FEq "usage_type" (usageType f)).
Proof.
  rewrite <- or_template. unfold fetchPlots_query.
  destruct (truthy_string (search f)), (gt (minPrice f) 0),
    (lt (maxPrice f) 10000000), (gt (minArea f) 0),
    (lt (maxArea f) 10000), (truthy_string (councilId f)),
    (truthy_string (usageType f)); reflexivity.
Qed.

Lemma fetchPlots_request_filters (filters : option SearchFilters) :
  q_filters (fetchPlots_request filters) = q_filters (fetchPlots_query filters).
Proof. reflexivity. Qed.

Lemma truthy_string_iff (s : string) : truthy_string s = true <-> s <> "".
Proof. destruct s; simpl; split; congruence. Qed.

Ltac solve_membership :=
  rewrite fetchPlots_request_filters, fetchPlots_query_filters;
  rewrite ?in_app_iff, ?in_when; simpl;
  intuition (try discriminate; try congruence).

Lemma lte_in_request (f : SearchFilters) (column : string) (v : number) :
  In (FLte column v) (q_filters (fetchPlots_request (Some f))) <->
    (lt (maxPrice f) 10000000 = true /\ column = "price" /\ v = maxPrice f)
    \/ (lt (maxArea f) 10000 = true /\ column = "area_sqm" /\ v = maxArea f).
Proof. solve_membership. Qed.

Lemma gte_in_request (f : SearchFilters) (column : string) (v : number) :
  In (FGte column v) (q_filters (fetchPlots_request (Some f))) <->
    (gt (minPrice f) 0 = true /\ column = "price" /\ v = minPrice f)
    \/ (gt (minArea f) 0 = true /\ column = "area_sqm" /\ v = minArea f).
Proof. solve_membership. Qed.

Lemma or_in_request (f : SearchFilters) (e : string) :
  In (FOr e) (q_filters (fetchPlots_request (Some f))) <->
    truthy_string (search f) = true /\ e = text_search (search f).
Proof. solve_membership. Qed.

(** C3. The query carries [price <= maxPrice] exactly when
    [maxPrice < 10000000], and [area_sqm <= maxArea] exactly when
    [maxArea < 10000]; these are its only upper bounds on the two columns.
    A [maxPrice] equal to 10000000 gives no upper bound on the price, a
    [maxPrice] of 9999999 gives one. *)
Theorem upper_bound_iff_below_ceiling (f : SearchFilters) :
  (forall v, In (FLte "price" v) (q_filters (fetchPlots_request (Some f)))
             <-> lt (maxPrice f) 10000000 = true /\ v = maxPrice f)
  /\ (forall v, In (FLte "area_sqm" v) (q_filters (fetchPlots_request (Some f)))
                <-> lt (maxArea f) 10000 = true /\ v = maxArea f)
  /\ (equal (maxPrice f) 10000000 = true ->
      forall v, ~ In (FLte "price" v) (q_filters (fetchPlots_request (Some f))))
  /\ In (FLte "price" 9999999)
        (q_filters (fetchPlots_request (Some (with_maxPrice 9999999 f)))).
Proof.
  split; [|split; [|split]].
  - intros v. rewrite lte_in_request. split.
    + intros [(Hlt & _ & Hv)|(_ & Hc & _)]; [tauto | discriminate].
    + intros [Hlt Hv]. left. tauto.
  - intros v. rewrite lte_in_request. split.
    + intros [(_ & Hc & _)|(Hlt & _ & Hv)]; [discriminate | tauto].
    + intros [Hlt Hv]. right. tauto.
  - intros Heq v. rewrite lte_in_request.
    intros [(Hlt & _)|(_ & Hc & _)]; [|discriminate].
    rewrite (equal_lt_false _ _ Heq) in Hlt. discriminate.
  - rewrite lte_in_request. left. repeat split.
Qed.

Lemma upper_bound_iff_below_ceiling_witness :
  equal (maxPrice defaults) 10000000 = true /\
  forall v, ~ In (FLte "price" v) (q_filters (fetchPlots_request (Some defaults))).
Proof.
  split; [reflexivity|].
  apply (proj1 (proj2 (proj2 (upper_bound_iff_below_ceiling defaults)))).
  reflexivity.
Defined.

(** C4. The query carries [price >= minPrice] exactly when [minPrice > 0],
    and [area_sqm >= minArea] exactly when [minArea > 0]; these are its only
    lower bounds on the two columns.  A [minPrice] equal to zero gives no
    lower bound on the price. *)
Theorem lower_bound_iff_positive (f : SearchFilters) :
  (forall v, In (FGte "price" v) (q_filters (fetchPlots_request (Some f)))
             <-> gt (minPrice f) 0 = true /\ v = minPrice f)
  /\ (forall v, In (FGte "area_sqm" v) (q_filters (fetchPlots_request (Some f)))
                <-> gt (minArea f) 0 = true /\ v = minArea f)
  /\ (equal (minPrice f) 0 = true ->
      forall v, ~ In (FGte "price" v) (q_filters (fetchPlots_request (Some f)))).
Proof.
  split; [|split].
  - intros v. rewrite gte_in_request. split.
    + intros [(Hgt & _ & Hv)|(_ & Hc & _)]; [tauto | discriminate].
    + intros [Hgt Hv]. left. tauto.
  - intros v. rewrite gte_in_request. split.
    + intros [(_ & Hc & _)|(Hgt & _ & Hv)]; [discriminate | tauto].
    + intros [Hgt Hv]. right. tauto.
  - intros Heq v. rewrite gte_in_request.
    intros [(Hgt & _)|(_ & Hc & _)]; [|discriminate].
    rewrite (equal_gt_false _ _ Heq) in Hgt. discriminate.
Qed.

Lemma lower_bound_iff_positive_witness :
  equal (minPrice (with_search "plot" defaults)) 0 = true /\
  forall v, ~ In (FGte "price" v)
                 (q_filters (fetchPlots_request (Some (with_search "plot" defaults)))).
Proof.
  split; [reflexivity|].
  apply (proj2 (proj2 (lower_bound_iff_positive (with_search "plot" defaults)))).
  reflexivity.
Defined.

(** *** How the store reads the text search *)








Section PatternFacts.

Variable same_letter : ascii -> ascii -> bool.





End PatternFacts.




(** C6. With every field at its default, and also with no filters at all,
    the request is the [plots] query with the single predicate
    [status = available], ordered by [created_at], descending. *)
Theorem default_filters_request :
  let unconstrained :=
    {| q_table := "plots"; q_columns := plot_columns;
       q_filters := [FEq "status" "available"];
       q_order := [{| o_column := "created_at"; o_ascending := false |}] |} in
  fetchPlots_request (Some defaults) = unconstrained
  /\ fetchPlots_request None = unconstrained.
Proof. split; reflexivity. Qed.

(** C10. A bound on the unconstrained side of its sentinel is left out of
    the query like the sentinel itself: a negative [minPrice] or [minArea]
    gives no lower bound, a [maxPrice] above 10000000 or a [maxArea] above
    10000 gives no upper bound. *)
Theorem out_of_range_bound_omitted (f : SearchFilters) :
  (lt (minPrice f) 0 = true ->
   forall v, ~ In (FGte "price" v) (q_filters (fetchPlots_request (Some f))))
  /\ (lt (minArea f) 0 = true ->
      forall v, ~ In (FGte "area_sqm" v) (q_filters (fetchPlots_request (Some f))))
  /\ (gt (maxPrice f) 10000000 = true ->
      forall v, ~ In (FLte "price" v) (q_filters (fetchPlots_request (Some f))))
  /\ (gt (maxArea f) 10000 = true ->
      forall v, ~ In (FLte "area_sqm" v) (q_filters (fetchPlots_request (Some f)))).
Proof.
  split; [|split; [|split]]; intros Hout v.
  - rewrite gte_in_request. intros [(Hgt & _)|(_ & Hc & _)]; [|discriminate].
    rewrite (lt_gt_false _ _ Hout) in Hgt. discriminate.
  - rewrite gte_in_request. intros [(_ & Hc & _)|(Hgt & _)]; [discriminate|].
    rewrite (lt_gt_false _ _ Hout) in Hgt. discriminate.
  - rewrite lte_in_request. intros [(Hlt & _)|(_ & Hc & _)]; [|discriminate].
    rewrite (gt_lt_false _ _ Hout) in Hlt. discriminate.
  - rewrite lte_in_request. intros [(_ & Hc & _)|(Hlt & _)]; [discriminate|].
    rewrite (gt_lt_false _ _ Hout) in Hlt. discriminate.
Qed.

Lemma out_of_range_bound_omitted_witness :
  (lt (minPrice out_of_range) 0 = true /\ lt (minArea out_of_range) 0 = true
   /\ gt (maxPrice out_of_range) 10000000 = true
   /\ gt (maxArea out_of_range) 10000 = true)
  /\ forall v,
       ~ In (FGte "price" v) (q_filters (fetchPlots_request (Some out_of_range)))
       /\ ~ In (FGte "area_sqm" v) (q_filters (fetchPlots_request (Some out_of_range)))
       /\ ~ In (FLte "price" v) (q_filters (fetchPlots_request (Some out_of_range)))
       /\ ~ In (FLte "area_sqm" v) (q_filters (fetchPlots_request (Some out_of_range))).
Proof.
  split; [repeat split|].
  intros v.
  destruct (out_of_range_bound_omitted out_of_range) as (H1 & H2 & H3 & H4).
  repeat split.
  - apply H1. reflexivity.
  - apply H2. reflexivity.
  - apply H3. reflexivity.
  - apply H4. reflexivity.
Defined.

(** ** The calls *)

Section ControllerFacts.

Context {Plot ErrorInfo : Type}.

Implicit Types (store : Store Plot ErrorInfo) (s : State Plot).
Implicit Types (filters : option SearchFilters) (e : ErrorInfo).

(** A call whose request fails: the guard of line 69 or the [catch] logs,
    the [finally] clears the flag. *)
Lemma call_fetchPlots_failure store filters s e :
  failure (store (fetchPlots_request filters)) = Some e ->
  call (fetchPlots store filters) s =
    {| settled := Fulfilled;
       final := with_loading false s;
       events := [SetLoading true; Request (fetchPlots_request filters);
                  ConsoleError "Error fetching plots:" e;
                  SetLoading false] |}.
Proof.
  unfold call, fetchPlots, try_catch_finally, bind, await.
  change (Supabase.order (fetchPlots_query filters) "created_at" false)
    with (fetchPlots_request filters).
  cbv zeta. simpl.
  destruct (store (fetchPlots_request filters)) as [data [e'|]|e'];
    simpl; intros H; inversion H; subst; reflexivity.
Qed.

(** A call whose request succeeds: line 74 stores the rows. *)
Lemma call_fetchPlots_success store filters s data :
  store (fetchPlots_request filters) = Resolves data None ->
  call (fetchPlots store filters) s =
    {| settled := Fulfilled;
       final := with_loading false (with_plots (or_empty data) s);
       events := [SetLoading true; Request (fetchPlots_request filters);
                  SetPlots (or_empty data); SetLoading false] |}.
Proof.
  unfold call, fetchPlots, try_catch_finally, bind, await.
  change (Supabase.order (fetchPlots_query filters) "created_at" false)
    with (fetchPlots_request filters).
  cbv zeta. simpl. intros ->. reflexivity.
Qed.

Lemma response_cases (r : Response Plot ErrorInfo) :
  (exists e, failure r = Some e) \/ (exists data, r = Resolves data None).
Proof. destruct r as [data [e|]|e]; simpl; eauto. Qed.

(** C1. When the request fails (the store reports an error, or the request
    throws), the call still fulfils, only the loading flag differs from the
    state before the call (so the plots are the previous ones, none on the
    first load), the flag is off, and beside the request the one thing
    that happened is the log entry. *)
Theorem fetchPlots_failure_keeps_plots store filters s e :
  failure (store (fetchPlots_request filters)) = Some e ->
  let r := call (fetchPlots store filters) s in
  settled r = Fulfilled
  /\ plots (final r) = plots s
  /\ loading (final r) = false
  /\ final r = with_loading false s
  /\ events r = [SetLoading true; Request (fetchPlots_request filters);
                 ConsoleError "Error fetching plots:" e; SetLoading false]
  /\ (s = initialState -> plots (final r) = []).
Proof.
  intros H r. subst r. rewrite (call_fetchPlots_failure _ _ _ _ H). simpl.
  repeat split. intros ->. reflexivity.
Qed.

(** C2. Every call turns the loading flag on before its request goes out
    and off as its last step, whatever the store answers; the call fulfils
    and leaves the flag off. *)
Theorem fetchPlots_loading_bracket store filters s :
  let r := call (fetchPlots store filters) s in
  settled r = Fulfilled
  /\ loading (final r) = false
  /\ requests_while (loading s) (events r) = [(fetchPlots_request filters, true)]
  /\ exists step,
       events r = [SetLoading true; Request (fetchPlots_request filters);
                   step; SetLoading false]
       /\ match step with
          | SetPlots _ | ConsoleError _ _ => True
          | _ => False
          end.
Proof.
  intros r. subst r.
  destruct (response_cases (store (fetchPlots_request filters)))
    as [[e H]|[data H]].
  - rewrite (call_fetchPlots_failure _ _ _ _ H). simpl.
    repeat split. eexists. split; [reflexivity | exact I].
  - rewrite (call_fetchPlots_success _ _ _ _ H). simpl.
    repeat split. eexists. split; [reflexivity | exact I].
Qed.

(** C7. When the request succeeds, the plots become the returned rows:
    exactly the sequence the store returned, whatever was shown before, and
    the empty list when the store returned an empty or an absent result.
    The flag is off, the call fulfils and nothing is logged as an error. *)
Theorem fetchPlots_success_replaces_plots store filters s data :
  store (fetchPlots_request filters) = Resolves data None ->
  let rows := match data with Some returned => returned | None => [] end in
  let r := call (fetchPlots store filters) s in
  settled r = Fulfilled
  /\ plots (final r) = rows
  /\ final r = {| plots := rows; loading := false;
                  viewMode := viewMode s; selectedPlot := selectedPlot s |}
  /\ loading (final r) = false
  /\ events r = [SetLoading true; Request (fetchPlots_request filters);
                 SetPlots rows; SetLoading false]
  /\ (forall message payload, ~ In (ConsoleError message payload) (events r))
  /\ (forall returned, data = Some returned -> plots (final r) = returned)
  /\ (data = Some [] \/ data = None -> plots (final r) = []).
Proof.
  intros H rows r. subst rows r.
  rewrite (call_fetchPlots_success _ _ _ _ H). simpl.
  destruct data as [returned|]; simpl; repeat split.
  - intros message payload [F|[F|[F|[F|[]]]]]; discriminate.
  - intros returned' Heq. inversion Heq. reflexivity.
  - intros [Heq|Heq]; [inversion Heq; reflexivity | discriminate Heq].
  - intros message payload [F|[F|[F|[F|[]]]]]; discriminate.
  - intros returned Heq. discriminate Heq.
Qed.

(** C8. Two calls in a row with the same filters, the store answering the
    request the same way both times, end in the state a single call ends in;
    on success the plots are the returned rows alone. *)
Theorem fetchPlots_twice_as_once store1 store2 filters s :
  store2 (fetchPlots_request filters) = store1 (fetchPlots_request filters) ->
  let once := call (fetchPlots store1 filters) s in
  let twice := and_then once (fetchPlots store2 filters) in
  plots (final twice) = plots (final once)
  /\ final twice = final once
  /\ settled twice = Fulfilled
  /\ (forall data, store1 (fetchPlots_request filters) = Resolves data None ->
                   plots (final twice) = or_empty data).
Proof.
  intros Hsame once twice. subst once twice. unfold and_then.
  destruct (response_cases (store1 (fetchPlots_request filters)))
    as [[e H]|[data H]].
  - assert (H2 := H). rewrite <- Hsame in H2.
    rewrite (call_fetchPlots_failure _ _ _ _ H).
    rewrite (call_fetchPlots_failure _ _ _ _ H2). simpl.
    repeat split. intros data Hd. rewrite Hd in H. discriminate.
  - assert (H2 := H). rewrite <- Hsame in H2.
    rewrite (call_fetchPlots_success _ _ _ _ H).
    rewrite (call_fetchPlots_success _ _ _ _ H2). simpl.
    repeat split. intros data' Hd. congruence.
Qed.

(** C9 (amended). [setViewMode('map')] followed by [setViewMode('grid')]
    leaves the plots, the loading flag and the selected plot as they were,
    sends no request, and ends on the grid; when the page was on the grid
    before, the state and the rendered content are those from before. *)
Theorem map_then_grid_ends_on_grid s :
  let r := map_then_grid (ErrorInfo := ErrorInfo) s in
  final r = with_viewMode grid s
  /\ plots (final r) = plots s
  /\ loading (final r) = loading s
  /\ selectedPlot (final r) = selectedPlot s
  /\ events r = [SetViewMode map; SetViewMode grid]
  /\ requests_while (loading s) (events r) = []
  /\ render_content (final r) = PlotGrid (plots s) (loading s)
  /\ (viewMode s = grid ->
      final r = s /\ render_content (final r) = render_content s).
Proof.
  intros r. subst r. cbv [map_then_grid and_then call setViewMode]. simpl.
  repeat split; destruct s as [p l v sel]; simpl in *; subst; reflexivity.
Qed.

End ControllerFacts.

(** ** The theorems at sample inputs *)

Lemma fetchPlots_failure_keeps_plots_witness :
  failure (failing_store (fetchPlots_request (Some defaults)))
    = Some "upstream timeout"
  /\ plots (final (call (fetchPlots failing_store (Some defaults)) browsing))
     = [7; 8]
  /\ loading (final (call (fetchPlots failing_store (Some defaults)) browsing))
     = false.
Proof.
  split; [reflexivity|].
  destruct (fetchPlots_failure_keeps_plots
              failing_store (Some defaults) browsing "upstream timeout" eq_refl)
    as (_ & Hplots & Hloading & _).
  split; [exact Hplots | exact Hloading].
Defined.

Lemma fetchPlots_success_replaces_plots_witness :
  (stocked_store (fetchPlots_request (Some defaults))
     = Resolves (Some [3; 2; 1]) None
   /\ plots browsing = [7; 8]
   /\ plots (final (call (fetchPlots stocked_store (Some defaults)) browsing))
      = [3; 2; 1]
   /\ loading (final (call (fetchPlots stocked_store (Some defaults)) browsing))
      = false)
  /\ (empty_store (fetchPlots_request None) = Resolves (Some []) None
      /\ plots (final (call (fetchPlots empty_store None) browsing)) = []).
Proof.
  split.
  - split; [reflexivity|]. split; [reflexivity|].
    destruct (fetchPlots_success_replaces_plots
                stocked_store (Some defaults) browsing (Some [3; 2; 1]) eq_refl)
      as (_ & Hplots & _ & Hloading & _).
    split; [exact Hplots | exact Hloading].
  - split; [reflexivity|].
    destruct (fetchPlots_success_replaces_plots
                empty_store None browsing (Some []) eq_refl)
      as (_ & Hplots & _).
    exact Hplots.
Defined.

Lemma fetchPlots_twice_as_once_witness :
  stocked_store (fetchPlots_request (Some defaults))
    = stocked_store (fetchPlots_request (Some defaults))
  /\ plots (final (and_then (call (fetchPlots stocked_store (Some defaults)) browsing)
                            (fetchPlots stocked_store (Some defaults))))
     = [3; 2; 1].
Proof.
  split; [reflexivity|].
  destruct (fetchPlots_twice_as_once
              stocked_store stocked_store (Some defaults) browsing eq_refl)
    as (_ & _ & _ & Hdata).
  exact (Hdata (Some [3; 2; 1]) eq_refl).
Defined.

Lemma map_then_grid_ends_on_grid_witness :
  viewMode browsing = grid
  /\ final (map_then_grid (ErrorInfo := string) browsing) = browsing
  /\ render_content (final (map_then_grid (ErrorInfo := string) browsing))
     = render_content browsing.
Proof.
  split; [reflexivity|].
  destruct (map_then_grid_ends_on_grid (ErrorInfo := string) browsing)
    as (_ & _ & _ & _ & _ & _ & _ & Hgrid).
  exact (Hgrid eq_refl).
Defined.

(** C9 as stated fails for a page that shows the map: after
    [setViewMode('map')] and [setViewMode('grid')] it shows the grid, not
    the map it showed before. *)
Lemma map_then_grid_from_map_not_restored :
  viewMode on_the_map = map
  /\ render_content (final (map_then_grid (ErrorInfo := string) on_the_map))
     = PlotGrid [7; 8] false
  /\ render_content on_the_map = MapView [7; 8]
  /\ render_content (final (map_then_grid (ErrorInfo := string) on_the_map))
     <> render_content on_the_map.
Proof.
  repeat split. discriminate.
Qed.

(** * Further properties of the page *)

(** ** The query: what the claims leave out *)

Lemma eq_in_request (f : SearchFilters) (column v : string) :
  In (FEq column v) (q_filters (fetchPlots_request (Some f))) <->
    (column = "status" /\ v = "available")
    \/ (truthy_string (councilId f) = true
        /\ column = "council_id" /\ v = councilId f)
    \/ (truthy_string (usageType f) = true
        /\ column = "usage_type" /\ v = usageType f).
Proof. solve_membership. Qed.

(** X1. The equality predicates of the query are the availability
    restriction, [council_id = councilId] when a council is chosen, and
    [usage_type = usageType] when a usage type is chosen, and no other. *)
Theorem equality_predicates (f : SearchFilters) (column v : string) :
  In (FEq column v) (q_filters (fetchPlots_request (Some f))) <->
    (column = "status" /\ v = "available")
    \/ (councilId f <> "" /\ column = "council_id" /\ v = councilId f)
    \/ (usageType f <> "" /\ column = "usage_type" /\ v = usageType f).
Proof. rewrite eq_in_request, !truthy_string_iff. tauto. Qed.

(** X2. Whatever the filters, the request reads the [plots] table with the
    same projection, newest first, and its first predicate is
    [status = available]; at most seven predicates follow. *)
Theorem request_always_available_newest_first (filters : option SearchFilters) :
  q_table (fetchPlots_request filters) = "plots"
  /\ q_columns (fetchPlots_request filters) = plot_columns
  /\ q_order (fetchPlots_request filters)
     = [{| o_column := "created_at"; o_ascending := false |}]
  /\ exists rest,
       q_filters (fetchPlots_request filters)
         = FEq "status" "available" :: rest
       /\ List.length rest <= 7.
Proof.
  destruct filters as [f|].
  - unfold fetchPlots_request, fetchPlots_query.
    destruct (truthy_string (search f)), (gt (minPrice f) 0),
      (lt (maxPrice f) 10000000), (gt (minArea f) 0),
      (lt (maxArea f) 10000), (truthy_string (councilId f)),
      (truthy_string (usageType f));
      (repeat split; eexists; split; [reflexivity | simpl; repeat constructor]).
  - repeat split. exists []. split; [reflexivity | simpl; repeat constructor].
Qed.

(** X3. The request built from filters is the unfiltered request exactly
    when no guard of the filter block fires: the text, the council and the
    usage type are empty and no numeric bound is on the constraining side of
    its sentinel. *)
Theorem request_unfiltered_iff_no_guard (f : SearchFilters) :
  fetchPlots_request (Some f) = fetchPlots_request None <->
    search f = ""
    /\ gt (minPrice f) 0 = false
    /\ lt (maxPrice f) 10000000 = false
    /\ gt (minArea f) 0 = false
    /\ lt (maxArea f) 10000 = false
    /\ councilId f = ""
    /\ usageType f = "".
Proof.
  split.
  - intros H. apply (f_equal q_filters) in H.
    rewrite fetchPlots_request_filters, fetchPlots_query_filters in H.
    destruct (search f), (gt (minPrice f) 0), (lt (maxPrice f) 10000000),
      (gt (minArea f) 0), (lt (maxArea f) 10000), (councilId f),
      (usageType f); simpl in H; try discriminate H; repeat split.
  - intros (Hs & H1 & H2 & H3 & H4 & Hc & Hu).
    unfold fetchPlots_request, fetchPlots_query.
    rewrite Hs, H1, H2, H3, H4, Hc, Hu. reflexivity.
Qed.

Lemma SFcompare_refl_none (x : spec_float) :
  SFeqb x x = false -> x = S754_nan.
Proof.
  unfold SFeqb. destruct x as [sx|sx| |sx mx ex]; simpl; try reflexivity.
  - discriminate.
  - destruct sx; discriminate.
  - rewrite Z.compare_refl.
    change (Pos.compare_cont Eq mx mx) with (Pos.compare mx mx).
    rewrite Pos.compare_refl. destruct sx; discriminate.
Qed.

(** NaN is on neither side of any number. *)
Lemma NaN_unordered (a b : number) :
  is_NaN a = true -> lt a b = false /\ gt a b = false.
Proof.
  unfold is_NaN, equal, lt, gt. rewrite !ltb_spec, eqb_spec.
  intros H. apply negb_true_iff, SFcompare_refl_none in H. rewrite H.
  unfold SFltb. split; [reflexivity|].
  destruct (Prim2SF b) as [s|s| |s m e]; reflexivity.
Qed.

(** X4. A numeric bound that is NaN is left out of the query, on all four
    guards. *)
Theorem NaN_bound_omitted (f : SearchFilters) :
  (is_NaN (minPrice f) = true ->
   forall v, ~ In (FGte "price" v) (q_filters (fetchPlots_request (Some f))))
  /\ (is_NaN (maxPrice f) = true ->
      forall v, ~ In (FLte "price" v) (q_filters (fetchPlots_request (Some f))))
  /\ (is_NaN (minArea f) = true ->
      forall v, ~ In (FGte "area_sqm" v) (q_filters (fetchPlots_request (Some f))))
  /\ (is_NaN (maxArea f) = true ->
      forall v, ~ In (FLte "area_sqm" v) (q_filters (fetchPlots_request (Some f)))).
Proof.
  split; [|split; [|split]]; intros Hnan v;
    destruct (NaN_unordered _ 0%float Hnan) as [Hlt0 Hgt0];
    destruct (NaN_unordered _ 10000000%float Hnan) as [Hltp _];
    destruct (NaN_unordered _ 10000%float Hnan) as [Hlta _].
  - rewrite gte_in_request. intros [(Hg & _)|(_ & Hc & _)]; [|discriminate].
    rewrite Hgt0 in Hg. discriminate.
  - rewrite lte_in_request. intros [(Hl & _)|(_ & Hc & _)]; [|discriminate].
    rewrite Hltp in Hl. discriminate.
  - rewrite gte_in_request. intros [(_ & Hc & _)|(Hg & _)]; [discriminate|].
    rewrite Hgt0 in Hg. discriminate.
  - rewrite lte_in_request. intros [(_ & Hc & _)|(Hl & _)]; [discriminate|].
    rewrite Hlta in Hl. discriminate.
Qed.

Lemma NaN_bound_omitted_witness :
  is_NaN (minPrice unparsed_bounds) = true
  /\ is_NaN (maxPrice unparsed_bounds) = true
  /\ q_filters (fetchPlots_request (Some unparsed_bounds))
     = [FEq "status" "available"; FEq "council_id" "c-12"]
  /\ forall v,
       ~ In (FGte "price" v) (q_filters (fetchPlots_request (Some unparsed_bounds)))
       /\ ~ In (FLte "price" v) (q_filters (fetchPlots_request (Some unparsed_bounds))).
Proof.
  split; [reflexivity|]. split; [reflexivity|]. split; [reflexivity|].
  intros v.
  destruct (NaN_bound_omitted unparsed_bounds) as (H1 & H2 & _).
  split; [apply H1 | apply H2]; reflexivity.
Defined.

Lemma truthy_with_comma (a b : string) :
  truthy_string (a ++ "," ++ b)%string = true.
Proof. destruct a; reflexivity. Qed.

(** X5. The search text goes into the [or] expression as typed, with no
    escaping: for a text with a comma in it, [a,b], the expression the
    query carries is made of the four comma-separated pieces
    [title.ilike.%a], [b%], [description.ilike.%a] and [b%]. *)
Theorem search_text_not_escaped (f : SearchFilters) (a b : string) :
  In (FOr (any_of [ ("title.ilike.%" ++ a)%string; (b ++ "%")%string;
                    ("description.ilike.%" ++ a)%string; (b ++ "%")%string ]))
     (q_filters (fetchPlots_request (Some (with_search (a ++ "," ++ b) f)))).
Proof.
  rewrite or_in_request. simpl search. split; [apply truthy_with_comma|].
  rewrite <- or_template. unfold any_of. simpl.
  rewrite !string_app_assoc. simpl.
  repeat f_equal.
Qed.

(** ** The handlers *)

Section HandlerFacts.

Context {Plot ErrorInfo : Type}.

Implicit Types (store answer : Store Plot ErrorInfo) (s : State Plot).
Implicit Types (filters : option SearchFilters) (e : ErrorInfo).
Implicit Types (r : Run Plot ErrorInfo) (ev : UiEvent Plot ErrorInfo).
Implicit Types (plot : Plot).

(** The state a call of [fetchPlots] ends in, for every answer. *)
Lemma final_fetchPlots store filters s :
  final (call (fetchPlots store filters) s) =
    match store (fetchPlots_request filters) with
    | Resolves data None => with_loading false (with_plots (or_empty data) s)
    | _ => with_loading false s
    end.
Proof.
  destruct (response_cases (store (fetchPlots_request filters)))
    as [[e H]|[data H]].
  - rewrite (call_fetchPlots_failure _ _ _ _ H).
    destruct (store (fetchPlots_request filters)) as [d [e'|]|e'];
      [reflexivity | discriminate H | reflexivity].
  - rewrite (call_fetchPlots_success _ _ _ _ H), H. reflexivity.
Qed.

(** X6. A call of [fetchPlots] never touches the view mode or the selected
    plot, whatever the store answers, and the plots it leaves are either
    the previous ones or the rows of a successful answer: a selected plot
    stays selected even when the new rows no longer hold it. *)
Theorem fetchPlots_keeps_view_and_selection store filters s :
  let r := call (fetchPlots store filters) s in
  viewMode (final r) = viewMode s
  /\ selectedPlot (final r) = selectedPlot s
  /\ (plots (final r) = plots s
      \/ exists data,
           store (fetchPlots_request filters) = Resolves data None
           /\ plots (final r) = or_empty data).
Proof.
  intros r. subst r. rewrite final_fetchPlots.
  destruct (store (fetchPlots_request filters)) as [data [e|]|e]; simpl;
    repeat split; auto.
  right. exists data. split; reflexivity.
Qed.

(** X8. Pressing a toggle button and fetching commute: the state after
    [setViewMode v] then [fetchPlots] is the state after [fetchPlots] then
    [setViewMode v], for every answer of the store. *)
Theorem setViewMode_fetchPlots_commute store filters s (v : ViewMode) :
  final (and_then (call (setViewMode v) s) (fetchPlots store filters))
  = final (and_then (call (fetchPlots store filters) s) (setViewMode v)).
Proof.
  unfold and_then. cbn [final].
  rewrite !final_fetchPlots.
  destruct (store (fetchPlots_request filters)) as [data [e|]|e]; reflexivity.
Qed.

(** X9. A failed call cannot be told from a successful one that returns
    the rows already shown: both end in the same state.  On mount this
    makes a failed first load and an empty first result the same page, the
    grid with no plots and the loading flag off. *)
Theorem failure_looks_like_same_rows store1 store2 filters s e data :
  failure (store1 (fetchPlots_request filters)) = Some e ->
  store2 (fetchPlots_request filters) = Resolves data None ->
  or_empty data = plots s ->
  final (call (fetchPlots store1 filters) s)
  = final (call (fetchPlots store2 filters) s)
  /\ (filters = None -> s = initialState ->
      final (mount store1) = final (mount store2)
      /\ render_content (final (mount store1)) = PlotGrid [] false).
Proof.
  intros Hfail Hok Hrows.
  rewrite (call_fetchPlots_failure _ _ _ _ Hfail).
  rewrite (call_fetchPlots_success _ _ _ _ Hok). cbn [final].
  split.
  - rewrite Hrows. destruct s; reflexivity.
  - intros -> ->. unfold mount.
    rewrite (call_fetchPlots_failure _ _ _ _ Hfail).
    rewrite (call_fetchPlots_success _ _ _ _ Hok). cbn [final].
    rewrite Hrows. split; reflexivity.
Qed.

End HandlerFacts.

Lemma failure_looks_like_same_rows_witness :
  failure (failing_store (fetchPlots_request None)) = Some "upstream timeout"
  /\ final (mount failing_store) = final (mount empty_store)
  /\ render_content (final (mount failing_store)) = PlotGrid [] false.
Proof.
  split; [reflexivity|].
  exact (proj2 (failure_looks_like_same_rows
                  failing_store empty_store None initialState
                  "upstream timeout" (Some []) eq_refl eq_refl eq_refl)
               eq_refl eq_refl).
Defined.

(** X10. Of the two toggle buttons exactly one is shown as pressed, and it
    is the one of the view whose content is rendered. *)
Theorem pressed_button_matches_content {Plot : Type} (s : State Plot) :
  (grid_button_className (viewMode s) = pressed_className
   <-> render_content s = PlotGrid (plots s) (loading s))
  /\ (map_button_className (viewMode s) = pressed_className
      <-> render_content s = MapView (plots s))
  /\ (grid_button_className (viewMode s) = pressed_className
      <-> map_button_className (viewMode s) <> pressed_className).
Proof.
  unfold render_content.
  destruct (viewMode s); cbv [grid_button_className map_button_className
                              pressed_className append];
    intuition (try discriminate; try congruence).
Qed.

(** ** Sessions *)

Section SessionFacts.

Context {Plot ErrorInfo : Type}.

Implicit Types (store answer : Store Plot ErrorInfo) (s : State Plot).
Implicit Types (r : Run Plot ErrorInfo) (ev : UiEvent Plot ErrorInfo).
Implicit Types (evs : list (UiEvent Plot ErrorInfo)) (plot : Plot).
Implicit Types (t : list (Event Plot ErrorInfo)).

Lemma run_events_app evs1 evs2 r :
  run_events r (evs1 ++ evs2) = run_events (run_events r evs1) evs2.
Proof. revert r. induction evs1 as [|ev evs1 IH]; intros r; simpl; auto. Qed.

Lemma requests_while_app t1 t2 (l : bool) :
  requests_while l (t1 ++ t2)
  = requests_while l t1 ++ requests_while (loading_after l t1) t2.
Proof.
  revert l. induction t1 as [|x t1 IH]; intros l; simpl; [reflexivity|].
  destruct x; simpl; rewrite ?IH; reflexivity.
Qed.

(** One handler: what it asks of the store, how it settles, and the flag it
    leaves. *)
Lemma handler_step ev s (l : bool) :
  requests_while l (events (call (handler ev) s))
  = List.map (fun f => (fetchPlots_request (Some f), true)) (changed_filters [ev])
  /\ settled (call (handler ev) s) = Fulfilled
  /\ loading (final (call (handler ev) s))
     = match ev with FiltersChange _ _ => false | _ => loading s end.
Proof.
  destruct ev as [answer f| | |plot|plot]; try (repeat split; reflexivity).
  simpl handler. unfold handleFiltersChange.
  destruct (response_cases (answer (fetchPlots_request (Some f))))
    as [[e H]|[data H]].
  - rewrite (call_fetchPlots_failure _ _ _ _ H). repeat split.
  - rewrite (call_fetchPlots_success _ _ _ _ H). repeat split.
Qed.

Lemma run_events_requests evs r (l : bool) :
  settled r = Fulfilled ->
  loading (final r) = false ->
  requests_while l (events (run_events r evs))
  = requests_while l (events r)
    ++ List.map (fun f => (fetchPlots_request (Some f), true)) (changed_filters evs)
  /\ settled (run_events r evs) = Fulfilled
  /\ loading (final (run_events r evs)) = false.
Proof.
  revert r. induction evs as [|ev evs IH]; intros r Hs Hl.
  - simpl. rewrite app_nil_r. auto.
  - simpl run_events.
    destruct (handler_step ev (final r) (loading_after l (events r)))
      as (Hreq & Hset & Hload).
    destruct (IH (and_then r (handler ev))) as (IH1 & IH2 & IH3).
    + exact Hset.
    + unfold and_then. cbn [final]. rewrite Hload, Hl.
      destruct ev; reflexivity.
    + split; [|split; assumption].
      rewrite IH1. unfold and_then at 1. cbn [events].
      rewrite requests_while_app, Hreq, <- app_assoc.
      destruct ev; reflexivity.
Qed.

(** The mount effect is a call of [fetchPlots] like any other. *)
Lemma mount_step store :
  settled (mount store) = Fulfilled
  /\ loading (final (mount store)) = false
  /\ requests_while true (events (mount store)) = [(fetchPlots_request None, true)].
Proof.
  unfold mount.
  destruct (response_cases (store (fetchPlots_request None)))
    as [[e H]|[data H]].
  - rewrite (call_fetchPlots_failure _ _ _ _ H). repeat split.
  - rewrite (call_fetchPlots_success _ _ _ _ H). repeat split.
Qed.

(** X11. In every session the page sends the unfiltered request on mount
    and then one request per change of filters, in order and built from
    those filters, each while the loading flag is on; buttons and selections
    send none.  No handler throws and the flag is off at the end. *)
Theorem session_requests store evs :
  requests_while true (events (session store evs))
  = (fetchPlots_request None, true)
    :: List.map (fun f => (fetchPlots_request (Some f), true)) (changed_filters evs)
  /\ settled (session store evs) = Fulfilled
  /\ loading (final (session store evs)) = false.
Proof.
  unfold session.
  destruct (mount_step store) as (Hs & Hl & Hr).
  destruct (run_events_requests evs (mount store) true Hs Hl) as (H1 & H2 & H3).
  rewrite H1, Hr. auto.
Qed.

(** A part of the state that single events of a kind leave alone is left
    alone by every run of such events. *)
Lemma run_events_preserves {A : Type} (part : State Plot -> A)
    (changes : UiEvent Plot ErrorInfo -> bool) :
  (forall ev s, changes ev = false ->
                part (final (call (handler ev) s)) = part s) ->
  forall evs r,
    Forall (fun ev => changes ev = false) evs ->
    part (final (run_events r evs)) = part (final r).
Proof.
  intros Hstep evs. induction evs as [|ev evs IH]; intros r Hall.
  - reflexivity.
  - inversion Hall as [|ev' evs' Hev Hevs]; subst. simpl run_events.
    rewrite (IH _ Hevs). unfold and_then. cbn [final]. apply Hstep, Hev.
Qed.

Lemma final_handler ev s :
  final (call (handler ev) s) =
    match ev with
    | FiltersChange answer f =>
      match answer (fetchPlots_request (Some f)) with
      | Resolves data None => with_loading false (with_plots (or_empty data) s)
      | _ => with_loading false s
      end
    | GridButton => with_viewMode grid s
    | MapButton => with_viewMode map s
    | ViewDetails plot | PlotClick plot => with_selectedPlot (Some plot) s
    end.
Proof.
  destruct ev as [answer f| | |plot|plot]; try reflexivity.
  simpl handler. unfold handleFiltersChange. apply final_fetchPlots.
Qed.

Lemma plots_step ev s :
  replaces_plots ev = false -> plots (final (call (handler ev) s)) = plots s.
Proof.
  rewrite final_handler.
  destruct ev as [answer f| | |plot|plot]; simpl; try reflexivity.
  destruct (answer (fetchPlots_request (Some f))) as [data [e|]|e];
    simpl; [reflexivity | discriminate | reflexivity].
Qed.

Lemma viewMode_step ev s :
  is_button ev = false -> viewMode (final (call (handler ev) s)) = viewMode s.
Proof.
  rewrite final_handler.
  destruct ev as [answer f| | |plot|plot]; simpl;
    try reflexivity; try discriminate.
  destruct (answer (fetchPlots_request (Some f))) as [data [e|]|e];
    reflexivity.
Qed.

Lemma selectedPlot_step ev s :
  is_selection ev = false ->
  selectedPlot (final (call (handler ev) s)) = selectedPlot s.
Proof.
  rewrite final_handler.
  destruct ev as [answer f| | |plot|plot]; simpl;
    try reflexivity; try discriminate.
  destruct (answer (fetchPlots_request (Some f))) as [data [e|]|e];
    reflexivity.
Qed.

(** X13. The view mode of the page is the one of the button pressed last,
    and the grid when none was pressed: fetches and selections never change
    it. *)
Theorem viewMode_of_last_button store evs1 evs2 :
  Forall (fun ev => is_button ev = false) evs2 ->
  viewMode (final (session store (evs1 ++ MapButton :: evs2))) = map
  /\ viewMode (final (session store (evs1 ++ GridButton :: evs2))) = grid
  /\ viewMode (final (session store evs2)) = grid.
Proof.
  intros Hrest. unfold session. rewrite !run_events_app. simpl run_events.
  rewrite !(run_events_preserves viewMode is_button viewMode_step _ _ Hrest).
  repeat split.
  unfold mount. rewrite final_fetchPlots.
  destruct (store (fetchPlots_request None)) as [data [e|]|e]; reflexivity.
Qed.

(** X14. The selected plot is the one of the last selection, whether made
    on the grid or on the map: nothing clears it, and no fetch or button
    press changes it; it is absent as long as no plot was selected. *)
Theorem selectedPlot_of_last_selection store evs1 evs2 plot :
  Forall (fun ev => is_selection ev = false) evs2 ->
  selectedPlot (final (session store (evs1 ++ ViewDetails plot :: evs2)))
  = Some plot
  /\ selectedPlot (final (session store (evs1 ++ PlotClick plot :: evs2)))
     = Some plot
  /\ selectedPlot (final (session store evs2)) = None.
Proof.
  intros Hrest. unfold session. rewrite !run_events_app. simpl run_events.
  rewrite !(run_events_preserves selectedPlot is_selection
              selectedPlot_step _ _ Hrest).
  repeat split.
  unfold mount. rewrite final_fetchPlots.
  destruct (store (fetchPlots_request None)) as [data [e|]|e]; reflexivity.
Qed.

End SessionFacts.

Lemma viewMode_of_last_button_witness :
  viewMode (final (session empty_store sample_session)) = map.
Proof.
  apply (viewMode_of_last_button
           empty_store [FiltersChange stocked_store defaults]
           [PlotClick 2;
            FiltersChange failing_store (with_search "plot" defaults)]).
  repeat constructor.
Defined.

Lemma selectedPlot_of_last_selection_witness :
  selectedPlot (final (session empty_store sample_session)) = Some 2.
Proof.
  apply (selectedPlot_of_last_selection
           empty_store [FiltersChange stocked_store defaults; MapButton]
           [FiltersChange failing_store (with_search "plot" defaults)] 2).
  repeat constructor.
Defined.

(** ** Overlapping calls *)

Section OverlapFacts.

Context {Plot ErrorInfo : Type}.

Implicit Types (store : Store Plot ErrorInfo) (s : State Plot).
Implicit Types (filters : option SearchFilters) (r : Run Plot ErrorInfo).
Implicit Types (st : Step Plot ErrorInfo) (steps : list (Step Plot ErrorInfo)).

(** The two parts, run with nothing in between, are [fetchPlots]. *)
Lemma fetchPlots_split store filters s :
  and_then (call (fetchPlots_until_await filters) s)
           (fetchPlots_from_await (store (fetchPlots_request filters)))
  = call (fetchPlots store filters) s.
Proof.
  unfold and_then, call, fetchPlots, fetchPlots_until_await,
    fetchPlots_from_await, try_catch_finally, bind, await, resume, send.
  change (Supabase.order (fetchPlots_query filters) "created_at" false)
    with (fetchPlots_request filters).
  cbv zeta. simpl.
  destruct (store (fetchPlots_request filters)) as [data [e|]|e]; reflexivity.
Qed.

Lemma final_from_await (answer : Response Plot ErrorInfo) s :
  final (call (fetchPlots_from_await answer) s) =
    match answer with
    | Resolves data None => with_loading false (with_plots (or_empty data) s)
    | _ => with_loading false s
    end.
Proof. destruct answer as [data [e|]|e]; reflexivity. Qed.

Lemma run_steps_app steps1 steps2 r :
  run_steps r (steps1 ++ steps2) = run_steps (run_steps r steps1) steps2.
Proof.
  revert r. induction steps1 as [|st steps1 IH]; intros r; simpl; auto.
Qed.

Lemma plots_overlap_step st s :
  stores_rows st = false ->
  plots (final (call (step_handler st) s)) = plots s.
Proof.
  destruct st as [filters|store filters|ev]; simpl.
  - reflexivity.
  - rewrite final_from_await.
    destruct (store (fetchPlots_request filters)) as [data [e|]|e];
      simpl; [reflexivity | discriminate | reflexivity].
  - apply plots_step.
Qed.

Lemma run_steps_keeps_plots steps r :
  Forall (fun st => stores_rows st = false) steps ->
  plots (final (run_steps r steps)) = plots (final r).
Proof.
  revert r. induction steps as [|st steps IH]; intros r Hall.
  - reflexivity.
  - inversion Hall as [|st' steps' Hst Hsteps]; subst. simpl run_steps.
    rewrite (IH _ Hsteps). unfold and_then. cbn [final].
    apply plots_overlap_step, Hst.
Qed.

(** X12. Calls of [fetchPlots] may overlap, and whatever the order in
    which their requests went out, the plots of the page are the rows of
    the successful answer that came in last: answers that fail, requests
    that start, button presses and selections that follow leave them as
    they are.  So of two overlapping requests the one answered last wins,
    also when it was sent first. *)
Theorem plots_of_last_answer steps1 steps2 store filters data :
  store (fetchPlots_request filters) = Resolves data None ->
  Forall (fun st => stores_rows st = false) steps2 ->
  plots (final (run_steps fresh_page (steps1 ++ Answer store filters :: steps2)))
  = match data with Some rows => rows | None => [] end.
Proof.
  intros Hok Hrest.
  rewrite run_steps_app. simpl run_steps.
  rewrite (run_steps_keeps_plots _ _ Hrest).
  unfold and_then. cbn [final]. simpl step_handler.
  rewrite final_from_await, Hok. destruct data; reflexivity.
Qed.

End OverlapFacts.

Lemma plots_of_last_answer_witness :
  rows_by_request (fetchPlots_request (Some (with_search "plot" defaults)))
    = Resolves (Some [1]) None
  /\ rows_by_request (fetchPlots_request (Some defaults))
     = Resolves (Some [2]) None
  /\ plots (final (run_steps fresh_page overtaken)) = [1].
Proof.
  split; [reflexivity|]. split; [reflexivity|].
  exact (plots_of_last_answer
           [ Begin None; Answer rows_by_request None;
             Begin (Some (with_search "plot" defaults)); Begin (Some defaults);
             Answer rows_by_request (Some defaults) ]
           [] rows_by_request (Some (with_search "plot" defaults))
           (Some [1]) eq_refl (Forall_nil _)).
Defined.
